(** * The text-generation dashboard notebook

    A shallow embedding of [examples/text-generation/text-generation.ipynb]:
    the code cells of the notebook, in order, as a program over the calls it
    makes to its collaborators (environment, model hub, SageMaker SDK, shell
    commands of IPython), and of the two helpers of [utils] it imports. *)

From Stdlib Require Import String Ascii List Bool NArith Lia.
From Stdlib Require Import Numbers.DecimalString Sorting.Sorted.
Import ListNotations.

Local Open Scope string_scope.
Local Open Scope list_scope.

(** ** Python strings *)

Module PyStr.

(** [str(n)] / ['{}'.format(n)] for a non-negative integer. *)
Definition of_N (n : N) : string :=
  NilZero.string_of_uint (N.to_uint n).

(** [s.startswith(p)]. *)
Fixpoint startswith (p s : string) : bool :=
  match p, s with
  | EmptyString, _ => true
  | String _ _, EmptyString => false
  | String a p', String b s' => Ascii.eqb a b && startswith p' s'
  end.

(** [sub in s]: some position of [s] starts with [sub]. *)
Fixpoint contains (sub s : string) : bool :=
  startswith sub s ||
  match s with
  | EmptyString => false
  | String _ s' => contains sub s'
  end.

(** [c in s] for one character. *)
Fixpoint mem (c : ascii) (s : string) : bool :=
  match s with
  | EmptyString => false
  | String a s' => Ascii.eqb a c || mem c s'
  end.



(** ['\n'.join(l)] and friends. *)
Definition join (sep : string) (l : list string) : string :=
  String.concat sep l.

Definition newline : string := String (ascii_of_nat 10) EmptyString.

Definition newline_char : ascii := ascii_of_nat 10.

(** [s.split(sep)] for a separator of one character. *)
Fixpoint split (sep : ascii) (s : string) : list string :=
  match s with
  | EmptyString => [EmptyString]
  | String c s' =>
      if Ascii.eqb c sep then EmptyString :: split sep s'
      else match split sep s' with
           | [] => [String c EmptyString]
           | h :: t => String c h :: t
           end
  end.

End PyStr.

(** ** The helpers of [utils] *)

Module utils.

(** Modelled from the spec: [utils.get_dashboard_url], whose file is not
    part of the sources.  The spec asks for a URL containing the port; the
    notebook's prose gives its shape, the Jupyter server proxy address
    [https://{notebook-url}/proxy/{port}].  The host of the notebook
    instance is a constant of the deployment and is taken as a
    parameter. *)
Definition get_dashboard_url (notebook_url : string) (port : N) : string :=
  "https://" ++ notebook_url ++ "/proxy/" ++ PyStr.of_N port.

(** The pieces of a [docker run] command line, in the spelling of the
    docker CLI: [-p host:container], [-v host:container], [--env K=V].
    The container serves on port 80 (notebook prose). *)
Definition port_mapping (port : N) : string :=
  "-p " ++ PyStr.of_N port ++ ":80".

Definition volume_flag : string := "-v ".

Definition container_src_dir : string := "/usr/src/app/src".

Definition volume_mount (local_dir : string) : string :=
  volume_flag ++ local_dir ++ ":" ++ container_src_dir.

Definition debug_flag : string := "--env DASHBOARD_DEBUG=true".

(** Modelled from the spec: [utils.get_docker_run_command], whose file is
    not part of the sources.  Following the spec, the command carries the
    port mapping and the image name, a volume mount when a local directory
    is given ([local_dir_mount], absent by default) and a debug flag when
    [debug] is set (unset by default).  The notebook's prose also mentions
    passing the IAM role to the container; neither the spec nor the
    notebook says how, and it is left out. *)
Definition get_docker_run_command
    (port : N) (image_name : string)
    (local_dir_mount : option string) (debug : bool) : string :=
  "docker run " ++ port_mapping port
  ++ match local_dir_mount with
     | Some d => " " ++ volume_mount d
     | None => ""
     end
  ++ (if debug then " " ++ debug_flag else "")
  ++ " " ++ image_name.







End utils.

(** ** Effects of the notebook's code

    Code is a sequence of calls to collaborators; each call either returns
    or raises.  A raised exception goes to the handler of the [try] it is
    in, if any, and otherwise ends the run.  [warnings.warn] and [print]
    are the code's own writes; what the [!] lines print comes from the
    shell. *)

Module Py.

(** A raised Python exception: its class and its message. *)
Record exn : Type := Exn { exn_class : string; exn_message : string }.

(** A reference to an object returned by a library (tokenizer, model,
    predictor). *)
Definition obj : Type := N.

(** Keyword arguments of [PyTorchModel(...)]. *)
Record model_args : Type := ModelArgs {
  name : string;
  model_data : string;
  entry_point : string;
  source_dir : string;
  role : string;
  framework_version : string;
  py_version : string;
  code_location : string
}.

(** Keyword arguments of [model.deploy(...)]. *)
Record deploy_args : Type := DeployArgs {
  endpoint_name : string;
  instance_type : string;
  initial_instance_count : N
}.

(** The [!] lines of the notebook, one constructor per command, with the
    values IPython interpolates for [{...}]. *)
Inductive shell_cmd : Type :=
| tar_model_assets
| aws_s3_cp (bucket : string)
| docker_build (image_name model_name : string)
| echo_dashboard_url (url : string)
| run_command (command : string)
| docker_tag (image_name reference : string)
| ecr_get_login
| docker_push (reference : string)
| ecs_update_service (cluster service : string) (desired_count : N).

(** The line handed to the shell. *)
Definition command_line (c : shell_cmd) : string :=
  match c with
  | tar_model_assets =>
      "(cd model_assets && tar -czf ../model_assets.tar.gz *)"
  | aws_s3_cp bucket =>
      "aws s3 cp ./model_assets.tar.gz s3://" ++ bucket
  | docker_build image_name model_name =>
      "(cd dashboard && docker build -t " ++ image_name
      ++ " --build-arg DASHBOARD_SAGEMAKER_MODEL=" ++ model_name ++ " .)"
  | echo_dashboard_url url => "echo Dashboard URL: " ++ url
  | run_command command => command
  | docker_tag image_name reference =>
      "docker tag " ++ image_name ++ " " ++ reference
  | ecr_get_login => "eval $(aws ecr get-login --no-include-email)"
  | docker_push reference => "docker push " ++ reference
  | ecs_update_service cluster service desired_count =>
      "aws ecs update-service --cluster " ++ cluster
      ++ " --service " ++ service
      ++ " --desired-count " ++ PyStr.of_N desired_count
  end.

(** The calls the notebook makes, indexed by what they return.  [shell] is
    an [!] line: IPython runs it and hands nothing back to the code, the
    exit status of the command is not looked at. *)
Inductive call : Type -> Type :=
| path_exists (path : string) : call bool
| load_dotenv : call unit
| environ (key : string) : call string
| from_pretrained (class_name model_id cache_dir : string) : call obj
| shell (c : shell_cmd) : call unit
| get_execution_role : call string
| PyTorchModel (args : model_args) : call obj
| deploy (model : obj) (args : deploy_args) : call obj
| delete_endpoint (predictor : obj) : call unit
| delete_model (predictor : obj) : call unit.

(** What the code hands to [warnings.warn] and to [print]. *)
Inductive output : Type :=
| warning (message : string)
| printed (line : string).

(** Code: a value, a call and what follows it, a write and what follows
    it, or [try: body / except Exception as e: handler] and what follows
    it. *)
Inductive prog (A : Type) : Type :=
| Ret (a : A)
| Call {R : Type} (c : call R) (k : R -> prog A)
| Emit (o : output) (k : prog A)
| Try {B : Type} (body : prog B) (handler : exn -> prog B) (k : B -> prog A).

Arguments Ret {A} a.
Arguments Call {A R} c k.
Arguments Emit {A} o k.
Arguments Try {A B} body handler k.

Fixpoint bind {A B : Type} (p : prog A) (f : A -> prog B) : prog B :=
  match p with
  | Ret a => f a
  | Call c k => Call c (fun r => bind (k r) f)
  | Emit o k => Emit o (bind k f)
  | Try body handler k => Try body handler (fun x => bind (k x) f)
  end.

(** The code has no [try] statement anywhere. *)
Fixpoint handler_free {A : Type} (p : prog A) : Prop :=
  match p with
  | Ret _ => True
  | Call _ k => forall r, handler_free (k r)
  | Emit _ k => handler_free k
  | Try _ _ _ => False
  end.

Definition invoke {R : Type} (c : call R) : prog R := Call c Ret.

Definition warn (message : string) : prog unit :=
  Emit (warning message) (Ret tt).

Definition print (line : string) : prog unit :=
  Emit (printed line) (Ret tt).

(** What the session has seen: each call with its outcome, each output. *)
Inductive event : Type :=
| called {R : Type} (c : call R) (outcome : exn + R)
| emitted (o : output).

Definition trace : Type := list event.

(** The collaborators: given what happened so far, the outcome of the
    next call. *)
Definition world : Type := trace -> forall R : Type, call R -> exn + R.

(** Running a program from the trace [tr]: the trace at the end, and the
    exception that ended the run or the value returned.  An exception
    raised in the body of a [try] goes to its handler; one raised anywhere
    else, the handler included, ends the run. *)
Fixpoint run {A : Type} (w : world) (tr : trace) (p : prog A)
  : trace * (exn + A) :=
  match p with
  | Ret a => (tr, inr a)
  | Call c k =>
      match w tr _ c with
      | inl e => (tr ++ [called c (inl e)], inl e)
      | inr r => run w (tr ++ [called c (inr r)]) (k r)
      end
  | Emit o k => run w (tr ++ [emitted o]) k
  | Try body handler k =>
      match run w tr body with
      | (tr', inr x) => run w tr' (k x)
      | (tr', inl e) =>
          match run w tr' (handler e) with
          | (tr'', inr x) => run w tr'' (k x)
          | (tr'', inl e') => (tr'', inl e')
          end
      end
  end.

(** [post] holds of the run of [p] from [tr] whatever the collaborators
    answer: at each call, for each exception it may raise and each value
    it may return. *)
Fixpoint always {A : Type} (p : prog A) (tr : trace)
    (post : trace -> exn + A -> Prop) : Prop :=
  match p with
  | Ret a => post tr (inr a)
  | Call c k =>
      (forall e, post (tr ++ [called c (inl e)]) (inl e))
      /\ (forall r, always (k r) (tr ++ [called c (inr r)]) post)
  | Emit o k => always k (tr ++ [emitted o]) post
  | Try body handler k =>
      always body tr
        (fun tr' outcome =>
           match outcome with
           | inr x => always (k x) tr' post
           | inl e =>
               always (handler e) tr'
                 (fun tr'' outcome' =>
                    match outcome' with
                    | inr x => always (k x) tr'' post
                    | inl e' => post tr'' (inl e')
                    end)
           end)
  end.

End Py.

Declare Scope prog_scope.
Delimit Scope prog_scope with prog.
Notation "x <- p ;; q" := (Py.bind p (fun x => q))
  (at level 61, p at next level, right associativity) : prog_scope.
Notation "p ;; q" := (Py.bind p (fun _ => q))
  (at level 61, right associativity) : prog_scope.

(** ** The notebook, cell by cell *)

Module Notebook.
Import Py.
Local Open Scope string_scope.
Local Open Scope prog_scope.

Section Cells.

(** Host of the notebook instance, used by [utils.get_dashboard_url]. *)
Variable notebook_url : string.

(** [dotenv_filepath = Path('../../.env').resolve()]
    [if dotenv_filepath.exists(): load_dotenv()] *)
Definition cell_load_dotenv : prog unit :=
  dotenv_exists <- invoke (path_exists "../../.env") ;;
  if (dotenv_exists : bool) then invoke load_dotenv else Ret tt.

(** [tokenizer = AutoTokenizer.from_pretrained(...)]
    [model = AutoModelWithLMHead.from_pretrained(...)] *)
Definition cell_from_pretrained : prog (obj * obj) :=
  tokenizer <- invoke (from_pretrained "AutoTokenizer" "distilgpt2" "./model_assets") ;;
  model <- invoke (from_pretrained "AutoModelWithLMHead" "distilgpt2" "./model_assets") ;;
  Ret (tokenizer, model).

(** [DASHBOARD_S3_BUCKET = os.environ['DASHBOARD_S3_BUCKET']], then the
    [tar] and [aws s3 cp] lines. *)
Definition cell_upload_model_assets : prog string :=
  DASHBOARD_S3_BUCKET <- invoke (environ "DASHBOARD_S3_BUCKET") ;;
  invoke (shell tar_model_assets) ;;
  invoke (shell (aws_s3_cp DASHBOARD_S3_BUCKET)) ;;
  Ret DASHBOARD_S3_BUCKET.

(** [model_name = os.environ['DASHBOARD_SAGEMAKER_MODEL']]
    [model = PyTorchModel(name=model_name, ...)]; the keyword arguments
    are evaluated in order, [sagemaker.get_execution_role()] among
    them. *)
Definition cell_PyTorchModel (DASHBOARD_S3_BUCKET : string)
  : prog (string * obj) :=
  model_name <- invoke (environ "DASHBOARD_SAGEMAKER_MODEL") ;;
  execution_role <- invoke get_execution_role ;;
  model <- invoke (PyTorchModel {|
    name := model_name;
    model_data := "s3://" ++ DASHBOARD_S3_BUCKET ++ "/model_assets.tar.gz";
    entry_point := "entry_point.py";
    source_dir := "./model";
    role := execution_role;
    framework_version := "1.5.0";
    py_version := "py3";
    code_location := "s3://" ++ DASHBOARD_S3_BUCKET ++ "/code"
  |}) ;;
  Ret (model_name, model).

(** [predictor = model.deploy(endpoint_name=model_name, ...)] *)
Definition cell_deploy (model_name : string) (model : obj) : prog obj :=
  invoke (deploy model {|
    endpoint_name := model_name;
    instance_type := "ml.c5.xlarge";
    initial_instance_count := 1
  |}).

(** [image_name = 'dashboard'] and [port = 8501]. *)
Definition image_name : string := "dashboard".
Definition port : N := 8501.

(** [!(cd dashboard && docker build -t {image_name} ...)], a cell that
    appears twice. *)
Definition cell_docker_build (model_name : string) : prog unit :=
  invoke (shell (docker_build image_name model_name)).

(** Development run: local directory mounted, debug on. *)
Definition cell_run_development : prog unit :=
  let url := utils.get_dashboard_url notebook_url port in
  let command :=
    utils.get_docker_run_command port image_name
      (Some "./dashboard/src") true in
  invoke (shell (echo_dashboard_url url)) ;;
  invoke (shell (run_command command)).

(** Test run: [utils.get_docker_run_command(port, image_name)]. *)
Definition cell_run_test : prog unit :=
  let url := utils.get_dashboard_url notebook_url port in
  let command :=
    utils.get_docker_run_command port image_name None false in
  invoke (shell (echo_dashboard_url url)) ;;
  invoke (shell (run_command command)).

(** The three identifiers of the registry. *)
Definition cell_ecr_environ : prog (string * string * string) :=
  AWS_ACCOUNT_ID <- invoke (environ "AWS_ACCOUNT_ID") ;;
  AWS_REGION <- invoke (environ "AWS_REGION") ;;
  DASHBOARD_ECR_REPOSITORY <- invoke (environ "DASHBOARD_ECR_REPOSITORY") ;;
  Ret (AWS_ACCOUNT_ID, AWS_REGION, DASHBOARD_ECR_REPOSITORY).

(** [!docker tag {image_name} {AWS_ACCOUNT_ID}.dkr.ecr.{AWS_REGION}.amazonaws.com/{DASHBOARD_ECR_REPOSITORY}:latest],
    the login line, and [!docker push] with the reference written out
    again. *)
Definition cell_ecr_upload
    (AWS_ACCOUNT_ID AWS_REGION DASHBOARD_ECR_REPOSITORY : string)
  : prog unit :=
  invoke (shell (docker_tag image_name
    (AWS_ACCOUNT_ID ++ ".dkr.ecr." ++ AWS_REGION ++ ".amazonaws.com/"
     ++ DASHBOARD_ECR_REPOSITORY ++ ":latest"))) ;;
  invoke (shell ecr_get_login) ;;
  invoke (shell (docker_push
    (AWS_ACCOUNT_ID ++ ".dkr.ecr." ++ AWS_REGION ++ ".amazonaws.com/"
     ++ DASHBOARD_ECR_REPOSITORY ++ ":latest"))).

Definition cell_ecs_environ : prog (string * string) :=
  DASHBOARD_ECS_CLUSTER <- invoke (environ "DASHBOARD_ECS_CLUSTER") ;;
  DASHBOARD_ECR_SERVICE <- invoke (environ "DASHBOARD_ECR_SERVICE") ;;
  Ret (DASHBOARD_ECS_CLUSTER, DASHBOARD_ECR_SERVICE).

(** [!aws ecs update-service ... --desired-count 2] *)
Definition cell_ecs_start
    (DASHBOARD_ECS_CLUSTER DASHBOARD_ECR_SERVICE : string) : prog unit :=
  invoke (shell
    (ecs_update_service DASHBOARD_ECS_CLUSTER DASHBOARD_ECR_SERVICE 2)).

Definition cell_url_environ : prog (string * string) :=
  DASHBOARD_URL <- invoke (environ "DASHBOARD_URL") ;;
  DASHBOARD_ALB <- invoke (environ "DASHBOARD_ALB") ;;
  Ret (DASHBOARD_URL, DASHBOARD_ALB).

(** The text handed to [warnings.warn]. *)
Definition cname_warning (DASHBOARD_URL DASHBOARD_ALB : string) : string :=
  PyStr.newline ++ PyStr.join PyStr.newline [
    "Add CNAME record on your domain before continuing!";
    "from: " ++ DASHBOARD_URL;
    "to: " ++ DASHBOARD_ALB;
    "Otherwise you will see 'An error was encountered with the requested page' with Amazon Cognito."
  ].

(** [if DASHBOARD_URL != DASHBOARD_ALB: warnings.warn(...)]
    [print(f"DASHBOARD_URL: https://{DASHBOARD_URL}")] *)
Definition cell_dashboard_url (DASHBOARD_URL DASHBOARD_ALB : string)
  : prog unit :=
  (if negb (String.eqb DASHBOARD_URL DASHBOARD_ALB)
   then warn (cname_warning DASHBOARD_URL DASHBOARD_ALB)
   else Ret tt) ;;
  print ("DASHBOARD_URL: https://" ++ DASHBOARD_URL).

(** [!aws ecs update-service ... --desired-count 0] *)
Definition cell_ecs_stop
    (DASHBOARD_ECS_CLUSTER DASHBOARD_ECR_SERVICE : string) : prog unit :=
  invoke (shell
    (ecs_update_service DASHBOARD_ECS_CLUSTER DASHBOARD_ECR_SERVICE 0)).

(** [predictor.delete_endpoint()] and [predictor.delete_model()]. *)
Definition cell_delete (predictor : obj) : prog unit :=
  invoke (delete_endpoint predictor) ;;
  invoke (delete_model predictor).

(** The code cells from top to bottom. *)
Definition notebook : prog unit :=
  cell_load_dotenv ;;
  cell_from_pretrained ;;
  DASHBOARD_S3_BUCKET <- cell_upload_model_assets ;;
  named_model <- cell_PyTorchModel DASHBOARD_S3_BUCKET ;;
  let '(model_name, model) := named_model in
  predictor <- cell_deploy model_name model ;;
  cell_docker_build model_name ;;
  cell_run_development ;;
  cell_docker_build model_name ;;
  cell_run_test ;;
  ecr <- cell_ecr_environ ;;
  let '(AWS_ACCOUNT_ID, AWS_REGION, DASHBOARD_ECR_REPOSITORY) := ecr in
  cell_ecr_upload AWS_ACCOUNT_ID AWS_REGION DASHBOARD_ECR_REPOSITORY ;;
  ecs <- cell_ecs_environ ;;
  let '(DASHBOARD_ECS_CLUSTER, DASHBOARD_ECR_SERVICE) := ecs in
  cell_ecs_start DASHBOARD_ECS_CLUSTER DASHBOARD_ECR_SERVICE ;;
  urls <- cell_url_environ ;;
  let '(DASHBOARD_URL, DASHBOARD_ALB) := urls in
  cell_dashboard_url DASHBOARD_URL DASHBOARD_ALB ;;
  cell_ecs_stop DASHBOARD_ECS_CLUSTER DASHBOARD_ECR_SERVICE ;;
  cell_delete predictor.

End Cells.

End Notebook.

(** ** Reading a trace *)

Module Trace.
Import Py.

(** Did this event raise? *)
Definition raised (ev : event) : option exn :=
  match ev with
  | called _ (inl e) => Some e
  | _ => None
  end.

Definition raises (tr : trace) : list exn :=
  flat_map (fun ev => match raised ev with Some e => [e] | None => [] end) tr.

(** The shell commands issued, in order. *)
Definition shell_of (ev : event) : option shell_cmd :=
  match ev with
  | @called _ (shell c) _ => Some c
  | _ => None
  end.

Definition shells (tr : trace) : list shell_cmd :=
  flat_map (fun ev => match shell_of ev with Some c => [c] | None => [] end) tr.

(** The desired counts requested with [aws ecs update-service]. *)
Definition desired_counts (tr : trace) : list N :=
  flat_map (fun c => match c with
                     | ecs_update_service _ _ n => [n]
                     | _ => []
                     end) (shells tr).

(** Destination references of [docker tag], and references pushed. *)
Definition tagged (tr : trace) : list string :=
  flat_map (fun c => match c with
                     | docker_tag _ r => [r]
                     | _ => []
                     end) (shells tr).

Definition pushed (tr : trace) : list string :=
  flat_map (fun c => match c with
                     | docker_push r => [r]
                     | _ => []
                     end) (shells tr).

(** Values read from [os.environ], with their keys. *)
Definition environ_reads (tr : trace) : list (string * string) :=
  flat_map (fun ev => match ev with
                      | @called _ (environ key) (inr v) => [(key, v)]
                      | _ => []
                      end) tr.

(** Models defined, each with the object returned when the constructor
    succeeded; deployments, each with the model it was called on. *)
Definition models (tr : trace) : list (model_args * option obj) :=
  flat_map (fun ev => match ev with
                      | @called _ (PyTorchModel a) (inr m) => [(a, Some m)]
                      | @called _ (PyTorchModel a) (inl _) => [(a, None)]
                      | _ => []
                      end) tr.

Definition deployments (tr : trace) : list (obj * deploy_args) :=
  flat_map (fun ev => match ev with
                      | @called _ (deploy m a) _ => [(m, a)]
                      | _ => []
                      end) tr.

(** What the code handed to [warnings.warn] and to [print], in order.
    What the [!] lines print, the two [echo] lines among them, comes from
    the shell and is not part of it. *)
Definition warned_and_printed (tr : trace) : list output :=
  flat_map (fun ev => match ev with
                      | emitted o => [o]
                      | _ => []
                      end) tr.

(** The eight steps of the walkthrough. *)
Inductive step : Type :=
| ConfigurationLoad
| ModelFetch
| PackageUpload
| EndpointDeploy
| LocalBuildRun
| ImagePush
| ServiceScaleUp
| Teardown.

Definition step_number (s : step) : nat :=
  match s with
  | ConfigurationLoad => 1
  | ModelFetch => 2
  | PackageUpload => 3
  | EndpointDeploy => 4
  | LocalBuildRun => 5
  | ImagePush => 6
  | ServiceScaleUp => 7
  | Teardown => 8
  end.

Definition step_of_shell (c : shell_cmd) : step :=
  match c with
  | tar_model_assets | aws_s3_cp _ => PackageUpload
  | docker_build _ _ | echo_dashboard_url _ | run_command _ => LocalBuildRun
  | docker_tag _ _ | ecr_get_login | docker_push _ => ImagePush
  | ecs_update_service _ _ n =>
      if N.eqb n 0 then Teardown else ServiceScaleUp
  end.

(** The step a call belongs to.  Looking a name up in [os.environ] and
    writing to the session are not delegated to a collaborator. *)
Definition step_of_call {R : Type} (c : call R) : option step :=
  match c with
  | path_exists _ | load_dotenv => Some ConfigurationLoad
  | environ _ => None
  | from_pretrained _ _ _ => Some ModelFetch
  | shell c => Some (step_of_shell c)
  | get_execution_role | PyTorchModel _ | deploy _ _ => Some EndpointDeploy
  | delete_endpoint _ | delete_model _ => Some Teardown
  end.

Definition step_of (ev : event) : option step :=
  match ev with
  | called c _ => step_of_call c
  | emitted _ => None
  end.

Definition steps (tr : trace) : list step :=
  flat_map (fun ev => match step_of ev with Some s => [s] | None => [] end) tr.

(** Consecutive repetitions removed. *)
Fixpoint phases (l : list step) : list step :=
  match l with
  | [] => []
  | s :: l' =>
      match l' with
      | s' :: _ =>
          if Nat.eqb (step_number s) (step_number s')
          then phases l' else s :: phases l'
      | [] => [s]
      end
  end.

(** No [p] happens until a [q] has happened. *)
Fixpoint not_before (p q : event -> bool) (tr : trace) : bool :=
  match tr with
  | [] => true
  | ev :: tr' => negb (p ev) && (q ev || not_before p q tr')
  end.

Definition is_scale_up (ev : event) : bool :=
  match shell_of ev with
  | Some (ecs_update_service _ _ n) => negb (N.eqb n 0)
  | _ => false
  end.

(** A push that returned. *)
Definition is_push_done (ev : event) : bool :=
  match ev with
  | @called _ (shell (docker_push _)) (inr _) => true
  | _ => false
  end.

Definition is_container_build (ev : event) : bool :=
  match shell_of ev with
  | Some (docker_build _ _) => true
  | _ => false
  end.

(** A deployment that returned. *)
Definition is_deploy_done (ev : event) : bool :=
  match ev with
  | @called _ (deploy _ _) (inr _) => true
  | _ => false
  end.

(** Outcomes of the [.env] check, and the number of [load_dotenv()]
    calls. *)
Definition dotenv_checks (tr : trace) : list (string * (exn + bool)) :=
  flat_map (fun ev => match ev with
                      | @called _ (path_exists path) o => [(path, o)]
                      | _ => []
                      end) tr.

Definition dotenv_loads (tr : trace) : nat :=
  length (flat_map (fun ev => match ev with
                              | @called _ load_dotenv _ => [tt]
                              | _ => []
                              end) tr).

(** Names looked up in [os.environ], whether or not the look-up
    returned. *)
Definition environ_lookups (tr : trace) : list string :=
  flat_map (fun ev => match ev with
                      | @called _ (environ key) _ => [key]
                      | _ => []
                      end) tr.

(** Role names returned by [sagemaker.get_execution_role()]. *)
Definition execution_roles (tr : trace) : list string :=
  flat_map (fun ev => match ev with
                      | @called _ get_execution_role (inr r) => [r]
                      | _ => []
                      end) tr.

(** Buckets of the [aws s3 cp] lines; image and model names of the
    [docker build] lines; image names of the [docker tag] lines; cluster,
    service and count of the [update-service] lines. *)
Definition uploads (tr : trace) : list string :=
  flat_map (fun c => match c with
                     | aws_s3_cp bucket => [bucket]
                     | _ => []
                     end) (shells tr).

Definition builds (tr : trace) : list (string * string) :=
  flat_map (fun c => match c with
                     | docker_build image model => [(image, model)]
                     | _ => []
                     end) (shells tr).

Definition tag_sources (tr : trace) : list string :=
  flat_map (fun c => match c with
                     | docker_tag image _ => [image]
                     | _ => []
                     end) (shells tr).

Definition service_updates (tr : trace) : list (string * string * N) :=
  flat_map (fun c => match c with
                     | ecs_update_service cluster service n =>
                         [(cluster, service, n)]
                     | _ => []
                     end) (shells tr).

(** Endpoint names of the deployments that returned, with the predictor
    returned; predictors whose endpoint, whose model was asked to be
    deleted. *)
Definition predictors (tr : trace) : list (string * obj) :=
  flat_map (fun ev => match ev with
                      | @called _ (deploy _ a) (inr p) => [(endpoint_name a, p)]
                      | _ => []
                      end) tr.

Definition deleted_endpoints (tr : trace) : list obj :=
  flat_map (fun ev => match ev with
                      | @called _ (delete_endpoint p) _ => [p]
                      | _ => []
                      end) tr.

Definition deleted_models (tr : trace) : list obj :=
  flat_map (fun ev => match ev with
                      | @called _ (delete_model p) _ => [p]
                      | _ => []
                      end) tr.

Definition is_delete_endpoint (ev : event) : bool :=
  match ev with
  | @called _ (delete_endpoint _) _ => true
  | _ => false
  end.

Definition is_delete_endpoint_done (ev : event) : bool :=
  match ev with
  | @called _ (delete_endpoint _) (inr _) => true
  | _ => false
  end.

Definition is_delete_model (ev : event) : bool :=
  match ev with
  | @called _ (delete_model _) _ => true
  | _ => false
  end.

(** A scale-down to zero that returned. *)
Definition is_scale_down_done (ev : event) : bool :=
  match ev with
  | @called _ (shell (ecs_update_service _ _ n)) (inr _) => N.eqb n 0
  | _ => false
  end.

Definition is_build_done (ev : event) : bool :=
  match ev with
  | @called _ (shell (docker_build _ _)) (inr _) => true
  | _ => false
  end.

Definition is_docker_tag (ev : event) : bool :=
  match shell_of ev with
  | Some (docker_tag _ _) => true
  | _ => false
  end.

Definition is_upload (ev : event) : bool :=
  match shell_of ev with
  | Some (aws_s3_cp _) => true
  | _ => false
  end.

(** The packaging line, returned. *)
Definition is_tar_done (ev : event) : bool :=
  match ev with
  | @called _ (shell tar_model_assets) (inr _) => true
  | _ => false
  end.

Definition is_model_definition (ev : event) : bool :=
  match ev with
  | @called _ (PyTorchModel _) _ => true
  | _ => false
  end.

(** The upload line, returned. *)
Definition is_upload_done (ev : event) : bool :=
  match ev with
  | @called _ (shell (aws_s3_cp _)) (inr _) => true
  | _ => false
  end.

(** The registry lines: a tag that returned, a login that returned, a
    login, a push. *)
Definition is_tag_done (ev : event) : bool :=
  match ev with
  | @called _ (shell (docker_tag _ _)) (inr _) => true
  | _ => false
  end.

Definition is_login (ev : event) : bool :=
  match shell_of ev with
  | Some ecr_get_login => true
  | _ => false
  end.

Definition is_login_done (ev : event) : bool :=
  match ev with
  | @called _ (shell ecr_get_login) (inr _) => true
  | _ => false
  end.

Definition is_push (ev : event) : bool :=
  match shell_of ev with
  | Some (docker_push _) => true
  | _ => false
  end.

(** Class, model id and cache directory of the [from_pretrained] calls
    that returned. *)
Definition fetched (tr : trace) : list (string * string * string) :=
  flat_map (fun ev => match ev with
                      | @called _ (from_pretrained cls id dir) (inr _) =>
                          [(cls, id, dir)]
                      | _ => []
                      end) tr.

(** The event is an outcome the world [w] gives for that call. *)
Definition answered_by (w : world) (ev : event) : Prop :=
  match ev with
  | @called R c o => exists tr0, w tr0 R c = o
  | emitted _ => True
  end.

(** The names the code cells look up in [os.environ], top to bottom. *)
Definition environ_names : list string :=
  ["DASHBOARD_S3_BUCKET"; "DASHBOARD_SAGEMAKER_MODEL"; "AWS_ACCOUNT_ID";
   "AWS_REGION"; "DASHBOARD_ECR_REPOSITORY"; "DASHBOARD_ECS_CLUSTER";
   "DASHBOARD_ECR_SERVICE"; "DASHBOARD_URL"; "DASHBOARD_ALB"]%string.

End Trace.

(** A world in which every call returns: [.env] exists, each environment
    name is set, each library call hands back a fresh object. *)
Definition obliging_world : Py.world :=
  fun tr R c =>
    match c in Py.call R return Py.exn + R with
    | Py.path_exists _ => inr true
    | Py.load_dotenv => inr tt
    | Py.environ key => inr (String.append "value-of-" key)
    | Py.from_pretrained _ _ _ => inr (N.of_nat (length tr))
    | Py.shell _ => inr tt
    | Py.get_execution_role => inr "arn:aws:iam::123456789012:role/notebook"%string
    | Py.PyTorchModel _ => inr (N.of_nat (length tr))
    | Py.deploy _ _ => inr (N.of_nat (length tr))
    | Py.delete_endpoint _ => inr tt
    | Py.delete_model _ => inr tt
    end.

Definition example_notebook_url : string :=
  "dashboard.notebook.eu-west-1.sagemaker.aws".

(** A world in which [os.environ] lacks [key] and everything else
    returns. *)
Definition world_without (key : string) : Py.world :=
  fun tr R c =>
    match c in Py.call R return Py.exn + R with
    | Py.environ k =>
        if String.eqb k key
        then inl (Py.Exn "KeyError" k)
        else inr (String.append "value-of-" k)
    | c' => obliging_world tr _ c'
    end.

(** * Properties *)

(** ** Facts about Python strings *)

Section PyStrFacts.
Import PyStr.
Local Open Scope string_scope.

Lemma startswith_app (p t : string) : startswith p (p ++ t) = true.
Proof.
  induction p as [|a p IH]; simpl.
  - reflexivity.
  - now rewrite Ascii.eqb_refl.
Qed.

Lemma startswith_inv (p s : string) :
  startswith p s = true -> exists t, s = p ++ t.
Proof.
  revert s; induction p as [|a p IH]; intros s H.
  - now exists s.
  - destruct s as [|b s]; simpl in H; [discriminate|].
    apply andb_true_iff in H as [Hab Hps].
    apply Ascii.eqb_eq in Hab; subst b.
    destruct (IH _ Hps) as [t ->].
    now exists t.
Qed.

Lemma contains_here (sub s : string) :
  startswith sub s = true -> contains sub s = true.
Proof.
  intros H; destruct s; simpl; simpl in H; rewrite H; reflexivity.
Qed.

Lemma contains_cons (sub : string) (a : ascii) (s : string) :
  contains sub (String a s) = startswith sub (String a s) || contains sub s.
Proof. reflexivity. Qed.

Lemma contains_app_r (sub s t : string) :
  contains sub t = true -> contains sub (s ++ t) = true.
Proof.
  intros H; induction s as [|a s IH].
  - exact H.
  - change (String a s ++ t) with (String a (s ++ t)).
    rewrite contains_cons, IH. apply orb_true_r.
Qed.

Lemma contains_infix (sub pre post : string) :
  contains sub (pre ++ sub ++ post) = true.
Proof. apply contains_app_r, contains_here, startswith_app. Qed.

(** [contains] is the substring relation. *)
Lemma contains_iff (sub s : string) :
  contains sub s = true <-> exists pre post, s = pre ++ sub ++ post.
Proof.
  split.
  - induction s as [|a s IH]; intros H.
    + simpl in H. rewrite orb_false_r in H.
      destruct (startswith_inv _ _ H) as [t Ht].
      now exists "", t.
    + rewrite contains_cons in H. apply orb_true_iff in H as [H|H].
      * destruct (startswith_inv _ _ H) as [t Ht]. now exists "", t.
      * destruct (IH H) as (pre & post & ->).
        now exists (String a pre), post.
  - intros (pre & post & ->). apply contains_infix.
Qed.








Lemma append_empty_r (a : string) : a ++ "" = a.
Proof. induction a as [|x a IH]; simpl; [reflexivity | now rewrite IH]. Qed.

Lemma contains_self (s : string) : contains s s = true.
Proof.
  apply contains_here.
  rewrite <- (append_empty_r s) at 2. apply startswith_app.
Qed.


End PyStrFacts.

(** ** The shell lines as written in the notebook *)

Example update_service_line :
  Py.command_line (Py.ecs_update_service "cluster" "service" 2)
  = "aws ecs update-service --cluster cluster --service service --desired-count 2"%string.
Proof. reflexivity. Qed.

Example docker_build_line :
  Py.command_line (Py.docker_build Notebook.image_name "distilgpt2")
  = "(cd dashboard && docker build -t dashboard --build-arg DASHBOARD_SAGEMAKER_MODEL=distilgpt2 .)"%string.
Proof. reflexivity. Qed.

Example docker_push_line :
  Py.command_line
    (Py.docker_push "1234.dkr.ecr.eu-west-1.amazonaws.com/repo:latest")
  = "docker push 1234.dkr.ecr.eu-west-1.amazonaws.com/repo:latest"%string.
Proof. reflexivity. Qed.

(** ** The helpers *)

Section Helpers.
Import PyStr utils.
Local Open Scope string_scope.














(** C2: for every port [p], [get_dashboard_url p] is an [https] URL whose
    text contains the decimal form of [p]; with the notebook's port it
    ends in [/proxy/8501]. *)
Theorem get_dashboard_url_contains_port (notebook_url : string) (p : N) :
  startswith "https://" (get_dashboard_url notebook_url p) = true
  /\ contains (of_N p) (get_dashboard_url notebook_url p) = true
  /\ get_dashboard_url notebook_url 8501
     = "https://" ++ notebook_url ++ "/proxy/8501".
Proof.
  split; [reflexivity|]. split; [|reflexivity].
  unfold get_dashboard_url.
  do 3 apply contains_app_r. apply contains_self.
Qed.

End Helpers.

(** ** Running programs *)

Section RunFacts.
Import Py Trace.

Lemma run_bind {A B : Type} (w : world) (p : prog A) (f : A -> prog B) :
  forall tr,
    run w tr (bind p f)
    = match run w tr p with
      | (tr', inl e) => (tr', inl e)
      | (tr', inr a) => run w tr' (f a)
      end.
Proof.
  induction p as [A a | A R c k IH | A o k IH | A C body _ handler _ k IH];
    intros tr; simpl.
  - reflexivity.
  - destruct (w tr R c) as [e|r]; [reflexivity | apply IH].
  - apply IH.
  - destruct (run w tr body) as [tr' [e|x]]; [|apply IH].
    destruct (run w tr' (handler e)) as [tr'' [e'|x]];
      [reflexivity | apply IH].
Qed.

Lemma raises_app (tr1 tr2 : trace) :
  raises (tr1 ++ tr2) = raises tr1 ++ raises tr2.
Proof. apply flat_map_app. Qed.

(** A run adds events to the trace; when it ends with an exception, the
    last event is the call that raised it and no earlier added event
    raised; when it returns, no added event raised. *)
Lemma run_raise_last {A : Type} (w : world) (p : prog A) :
  handler_free p ->
  forall tr,
    exists evs,
      fst (run w tr p) = tr ++ evs
      /\ match snd (run w tr p) with
         | inl e =>
             exists (R : Type) (c : call R) (evs0 : trace),
               evs = evs0 ++ [called c (inl e)] /\ raises evs0 = []
         | inr _ => raises evs = []
         end.
Proof.
  induction p as [A a | A R c k IH | A o k IH | A C body _ handler _ k _];
    intros Hfree tr; simpl in *; [| | |destruct Hfree].
  - exists []. split; [now rewrite app_nil_r | reflexivity].
  - destruct (w tr R c) as [e|r]; simpl.
    + exists [called c (inl e)]. split; [reflexivity|].
      now exists R, c, [].
    + destruct (IH r (Hfree r) (tr ++ [called c (inr r)]))
        as (evs & Htr & Hres).
      exists (called c (inr r) :: evs).
      split; [now rewrite Htr, <- app_assoc|].
      destruct (snd (run w (tr ++ [called c (inr r)]) (k r))) as [e|a].
      * destruct Hres as (R' & c' & evs0 & -> & H0).
        exists R', c', (called c (inr r) :: evs0). split; [reflexivity|].
        exact H0.
      * exact Hres.
  - destruct (IH Hfree (tr ++ [emitted o])) as (evs & Htr & Hres).
    exists (emitted o :: evs).
    split; [now rewrite Htr, <- app_assoc|].
    destruct (snd (run w (tr ++ [emitted o]) k)) as [e|a].
    + destruct Hres as (R' & c' & evs0 & -> & H0).
      exists R', c', (emitted o :: evs0). split; [reflexivity|].
      exact H0.
    + exact Hres.
Qed.

(** With a [try] around it, a look-up that raises does not end the run:
    the handler's value is returned although a call raised. *)
Example try_catches :
  let guarded :=
    Try (invoke (environ "DASHBOARD_URL"))
        (fun _ => Ret "localhost"%string) Ret in
  run (world_without "DASHBOARD_URL") [] guarded
  = ([called (environ "DASHBOARD_URL")
        (inl (Exn "KeyError" "DASHBOARD_URL"))],
     inr "localhost"%string)
  /\ ~ handler_free guarded.
Proof. split; [reflexivity | intros []]. Qed.

Lemma not_before_sound (p q : event -> bool) (tr : trace) :
  not_before p q tr = true ->
  forall tr1 ev tr2,
    tr = tr1 ++ ev :: tr2 -> p ev = true ->
    exists ev', In ev' tr1 /\ q ev' = true.
Proof.
  intros H tr1; revert tr H.
  induction tr1 as [|x tr1 IH]; intros tr H ev tr2 -> Hp; simpl in H.
  - rewrite Hp in H. discriminate.
  - apply andb_true_iff in H as [_ H].
    apply orb_true_iff in H as [Hq|H].
    + exists x. split; [now left | exact Hq].
    + destruct (IH _ H ev tr2 eq_refl Hp) as (ev' & Hin & Hq).
      exists ev'. split; [now right | exact Hq].
Qed.

Lemma always_run {A : Type} (w : world) (p : prog A) :
  forall tr post, always p tr post ->
    post (fst (run w tr p)) (snd (run w tr p)).
Proof.
  induction p
    as [A a | A R c k IH | A o k IH | A C body IHb handler IHh k IH];
    intros tr post H; simpl in *.
  - exact H.
  - destruct H as [He Hr].
    destruct (w tr R c) as [e|r]; [apply He | apply IH, Hr].
  - apply IH, H.
  - apply IHb in H.
    destruct (run w tr body) as [tr' [e|x]]; simpl in H; [|apply IH, H].
    apply IHh in H.
    destruct (run w tr' (handler e)) as [tr'' [e'|x]]; simpl in H;
      [exact H | apply IH, H].
Qed.

End RunFacts.

(** Unfolding the cells and splitting [always] into one goal per way the
    run can end. *)
Ltac unfold_cells :=
  unfold Notebook.notebook, Notebook.cell_load_dotenv,
    Notebook.cell_from_pretrained, Notebook.cell_upload_model_assets,
    Notebook.cell_PyTorchModel, Notebook.cell_deploy,
    Notebook.cell_docker_build, Notebook.cell_run_development,
    Notebook.cell_run_test, Notebook.cell_ecr_environ,
    Notebook.cell_ecr_upload, Notebook.cell_ecs_environ,
    Notebook.cell_ecs_start, Notebook.cell_url_environ,
    Notebook.cell_dashboard_url, Notebook.cell_ecs_stop,
    Notebook.cell_delete.

Ltac split_in :=
  repeat match goal with
         | H : In _ (_ :: _) |- _ =>
             destruct H as [H|H]; [inversion H; subst; clear H|]
         | H : In _ [] |- _ => destruct H
         | H : False |- _ => destruct H
         | H : _ \/ _ |- _ => destruct H
         | H : (_, _) = (_, _) |- _ => inversion H; subst; clear H
         end.

Ltac by_always w :=
  match goal with
  | |- context [Py.run w ?tr ?p] =>
      pattern (snd (Py.run w tr p)); pattern (fst (Py.run w tr p));
      apply (always_run w p tr); unfold_cells; every_run
  end
with every_run :=
  cbn [Py.always Py.bind Py.invoke Py.warn Py.print app];
  repeat match goal with
         | |- _ /\ _ => split
         | |- forall _, _ => intro
         | |- context [if ?b then _ else _] =>
             destruct b; cbn [Py.always Py.bind Py.invoke Py.warn Py.print app]
         end.

(** The same, keeping what each test evaluated to. *)
Ltac every_run_eqn :=
  cbn [Py.always Py.bind Py.invoke Py.warn Py.print app];
  repeat match goal with
         | |- _ /\ _ => split
         | |- forall _, _ => intro
         | |- context [if ?b then _ else _] =>
             destruct b eqn:?;
             cbn [Py.always Py.bind Py.invoke Py.warn Py.print app]
         end.

Ltac by_always_eqn w :=
  match goal with
  | |- context [Py.run w ?tr ?p] =>
      pattern (snd (Py.run w tr p)); pattern (fst (Py.run w tr p));
      apply (always_run w p tr); unfold_cells; every_run_eqn
  end.

(** ** The notebook *)

Section NotebookFacts.
Import Py Trace Notebook.
Local Open Scope string_scope.

Variable notebook_url : string.

(** C6: the desired counts requested of the orchestration service are,
    in order, 2 and then 0 and nothing else: in a run that ends early a
    beginning of that list, in a run that reaches the end exactly that
    list, so [update-service] is invoked twice; and a run can reach the
    end. *)
Theorem desired_counts_of_notebook (w : world) :
  let tr := fst (run w [] (notebook notebook_url)) in
  Forall (fun n => n = 2%N \/ n = 0%N) (desired_counts tr)
  /\ match snd (run w [] (notebook notebook_url)) with
     | inr _ => desired_counts tr = [2; 0]%N
     | inl _ => desired_counts tr = [] \/ desired_counts tr = [2]%N
                \/ desired_counts tr = [2; 0]%N
     end
  /\ snd (run obliging_world [] (notebook notebook_url)) = inr tt.
Proof.
  cbv zeta. split; [|split; [|reflexivity]].
  - by_always w; cbn;
      repeat (apply Forall_cons || apply Forall_nil); auto.
  - by_always w; cbn; auto.
Qed.

(** C7: the delegated steps happen in the order configuration load,
    model fetch, package and upload, endpoint definition and deployment,
    local build and run, image push, service scale-up, teardown: in every
    run the steps are in that order, a run that reaches the end goes
    through all eight, the desired count is not raised until a push has
    returned, and no container is built until the deployment has
    returned. *)
Theorem notebook_steps_in_order (w : world) :
  let tr := fst (run w [] (notebook notebook_url)) in
  Sorted (fun a b => step_number a <= step_number b) (steps tr)
  /\ match snd (run w [] (notebook notebook_url)) with
     | inr _ =>
         phases (steps tr)
         = [ConfigurationLoad; ModelFetch; PackageUpload; EndpointDeploy;
            LocalBuildRun; ImagePush; ServiceScaleUp; Teardown]
     | inl _ =>
         exists rest,
           (phases (steps tr) ++ rest)%list
           = [ConfigurationLoad; ModelFetch; PackageUpload; EndpointDeploy;
              LocalBuildRun; ImagePush; ServiceScaleUp; Teardown]
     end
  /\ (forall tr1 ev tr2,
        tr = (tr1 ++ ev :: tr2)%list -> is_scale_up ev = true ->
        exists ev', In ev' tr1 /\ is_push_done ev' = true)
  /\ (forall tr1 ev tr2,
        tr = (tr1 ++ ev :: tr2)%list -> is_container_build ev = true ->
        exists ev', In ev' tr1 /\ is_deploy_done ev' = true).
Proof.
  cbv zeta. repeat split.
  - by_always w; cbn; repeat (constructor; cbn).
  - by_always w; cbn; try reflexivity; eexists; reflexivity.
  - apply not_before_sound. by_always w; reflexivity.
  - apply not_before_sound. by_always w; reflexivity.
Qed.

(** C5: the notebook defines at most one model, and one when it reaches
    the deployment; its entry point is the file [entry_point.py] of the
    source directory [./model] and its name is the value read from
    [DASHBOARD_SAGEMAKER_MODEL].  It deploys at most once, and once in a
    run that reaches the end: the model object returned by that
    definition, on one instance, under an endpoint named like the model.
    (That the entry point provides [model_fn], [input_fn], [predict_fn]
    and [output_fn] is what the SDK expects of the file; the notebook
    passes the file name only.) *)
Theorem notebook_model_and_endpoint (w : world) :
  let tr := fst (run w [] (notebook notebook_url)) in
  (forall a om,
      In (a, om) (models tr) ->
      entry_point a = "entry_point.py" /\ source_dir a = "./model"
      /\ In ("DASHBOARD_SAGEMAKER_MODEL", name a) (environ_reads tr))
  /\ (forall m d,
        In (m, d) (deployments tr) ->
        initial_instance_count d = 1%N
        /\ exists a, models tr = [(a, Some m)] /\ endpoint_name d = name a)
  /\ length (models tr) <= 1 /\ length (deployments tr) <= 1
  /\ match snd (run w [] (notebook notebook_url)) with
     | inr _ => length (models tr) = 1 /\ length (deployments tr) = 1
     | inl _ => True
     end.
Proof.
  cbv zeta. by_always w; cbn in *; split_in;
    first [ reflexivity
          | solve [cbn; auto 20]
          | solve [eexists; split; reflexivity] ].
Qed.

(** C4: each environment name is read at most once, and the value read
    goes into the arguments as it is: [model_data] is
    ['s3://' + DASHBOARD_S3_BUCKET + '/model_assets.tar.gz'],
    [code_location] is ['s3://' + DASHBOARD_S3_BUCKET + '/code'], the
    reference of [docker tag] and the one of [docker push] are made of the
    account, the region and the repository with [:latest] at the end, and
    the reference pushed is the reference tagged. *)
Theorem notebook_passes_identifiers_through (w : world) :
  let tr := fst (run w [] (notebook notebook_url)) in
  NoDup (map fst (environ_reads tr))
  /\ (forall a om,
        In (a, om) (models tr) ->
        exists bucket,
          In ("DASHBOARD_S3_BUCKET", bucket) (environ_reads tr)
          /\ model_data a = "s3://" ++ bucket ++ "/model_assets.tar.gz"
          /\ code_location a = "s3://" ++ bucket ++ "/code")
  /\ (forall r,
        In r (tagged tr) ->
        exists account region repository,
          In ("AWS_ACCOUNT_ID", account) (environ_reads tr)
          /\ In ("AWS_REGION", region) (environ_reads tr)
          /\ In ("DASHBOARD_ECR_REPOSITORY", repository) (environ_reads tr)
          /\ r = account ++ ".dkr.ecr." ++ region ++ ".amazonaws.com/"
                 ++ repository ++ ":latest")
  /\ (forall r, In r (pushed tr) -> tagged tr = [r]).
Proof.
  cbv zeta. by_always w; cbn in *; split_in;
    first [ reflexivity
          | solve [subst; reflexivity]
          | solve [repeat (constructor; [cbn; intuition discriminate|]);
                   constructor]
          | solve [eexists; repeat split; [cbn; eauto 20 | reflexivity ..]]
          | solve [do 3 eexists; repeat split;
                   [cbn; eauto 20 .. | reflexivity]] ].
Qed.

(** No cell of the notebook contains a [try]. *)
Lemma notebook_handler_free : handler_free (notebook notebook_url).
Proof.
  unfold_cells. cbn [handler_free bind invoke warn print].
  repeat (intro
          || match goal with
             | |- context [if ?b then _ else _] =>
                 destruct b; cbn [handler_free bind invoke warn print]
             end);
    exact I.
Qed.

(** C8: nothing in the notebook catches, changes or retries an error.  No
    cell contains a [try], in a language that has it; so when the run ends
    with an exception, that exception is the one raised by the last call
    made, no call before it raised and nothing runs after it, and when the
    run reaches the end, no call raised.  A missing environment name, for
    one, ends the run with its [KeyError]. *)
Theorem notebook_errors_propagate (w : world) :
  let tr := fst (run w [] (notebook notebook_url)) in
  handler_free (notebook notebook_url)
  /\ match snd (run w [] (notebook notebook_url)) with
     | inl e =>
         raises tr = [e]
         /\ exists (R : Type) (c : call R) (tr0 : trace),
              tr = (tr0 ++ [called c (inl e)])%list /\ raises tr0 = []
     | inr _ => raises tr = []
     end
  /\ run (world_without "AWS_REGION") [] (notebook notebook_url)
     = (fst (run (world_without "AWS_REGION") [] (notebook notebook_url)),
        inl (Exn "KeyError" "AWS_REGION")).
Proof.
  cbv zeta. split; [exact notebook_handler_free|]. split; [|reflexivity].
  destruct (run_raise_last w (notebook notebook_url)
              notebook_handler_free [])
    as (evs & Htr & Hres).
  change ([] ++ evs)%list with evs in Htr. rewrite Htr.
  destruct (snd (run w [] (notebook notebook_url))) as [e|u].
  - destruct Hres as (R & c & tr0 & -> & H0).
    split; [|now exists R, c, tr0].
    rewrite raises_app, H0. reflexivity.
  - exact Hres.
Qed.

(** C10: the last URL cell raises nothing and writes to the session only:
    the CNAME warning when [DASHBOARD_URL] and [DASHBOARD_ALB] differ and
    no warning when they are equal, and then, in both cases, the line
    [DASHBOARD_URL: https://] followed by the value of [DASHBOARD_URL]. *)
Theorem cell_dashboard_url_outputs
    (DASHBOARD_URL DASHBOARD_ALB : string) (w : world) (tr : trace) :
  let result := run w tr (cell_dashboard_url DASHBOARD_URL DASHBOARD_ALB) in
  let line := printed ("DASHBOARD_URL: https://" ++ DASHBOARD_URL) in
  snd result = inr tt
  /\ exists evs,
       fst result = (tr ++ map emitted evs)%list
       /\ evs = (if String.eqb DASHBOARD_URL DASHBOARD_ALB
                 then [line]
                 else [warning (cname_warning DASHBOARD_URL DASHBOARD_ALB);
                       line])
       /\ ((exists message, In (warning message) evs)
           <-> DASHBOARD_URL <> DASHBOARD_ALB)
       /\ (forall text, In (printed text) evs <-> printed text = line).
Proof.
  cbv zeta. unfold cell_dashboard_url.
  destruct (String.eqb_spec DASHBOARD_URL DASHBOARD_ALB) as [E|E]; cbn.
  - split; [reflexivity|].
    exists [printed ("DASHBOARD_URL: https://" ++ DASHBOARD_URL)].
    split; [reflexivity|]. split; [reflexivity|]. split.
    + split; [intros (m & [H|[]]); discriminate | intros H; now elim H].
    + intros text. cbn. intuition congruence.
  - split; [reflexivity|].
    exists [warning (cname_warning DASHBOARD_URL DASHBOARD_ALB);
            printed ("DASHBOARD_URL: https://" ++ DASHBOARD_URL)].
    split; [now rewrite <- app_assoc|]. split; [reflexivity|]. split.
    + split; [intros _; exact E | intros _; eexists; now left].
    + intros text. cbn. intuition congruence.
Qed.

End NotebookFacts.

(** ** The theorems at a concrete run *)

Import Py Trace Notebook.
Local Open Scope string_scope.

(** At the obliging world the model and the deployment of C5 are there. *)
Lemma notebook_model_and_endpoint_obliging :
  let tr := fst (run obliging_world [] (notebook example_notebook_url)) in
  let a := {|
    name := "value-of-DASHBOARD_SAGEMAKER_MODEL";
    model_data := "s3://value-of-DASHBOARD_S3_BUCKET/model_assets.tar.gz";
    entry_point := "entry_point.py";
    source_dir := "./model";
    role := "arn:aws:iam::123456789012:role/notebook";
    framework_version := "1.5.0";
    py_version := "py3";
    code_location := "s3://value-of-DASHBOARD_S3_BUCKET/code" |} in
  let d := {|
    endpoint_name := "value-of-DASHBOARD_SAGEMAKER_MODEL";
    instance_type := "ml.c5.xlarge";
    initial_instance_count := 1 |} in
  (In (a, Some 9%N) (models tr)
   /\ entry_point a = "entry_point.py" /\ source_dir a = "./model"
   /\ In ("DASHBOARD_SAGEMAKER_MODEL", name a) (environ_reads tr))
  /\ (In (9%N, d) (deployments tr)
      /\ initial_instance_count d = 1%N
      /\ exists a', models tr = [(a', Some 9%N)]
                    /\ endpoint_name d = name a').
Proof.
  cbv zeta.
  pose proof (notebook_model_and_endpoint example_notebook_url obliging_world) as (Hm & Hd & _).
  split.
  - split; [now left|]. apply (Hm _ (Some 9%N)). now left.
  - split; [now left|]. apply (Hd 9%N). now left.
Defined.

(** At the obliging world the model and the references of C4 are
    there. *)
Lemma notebook_passes_identifiers_through_obliging :
  let tr := fst (run obliging_world [] (notebook example_notebook_url)) in
  let r := "value-of-AWS_ACCOUNT_ID.dkr.ecr.value-of-AWS_REGION.amazonaws.com/value-of-DASHBOARD_ECR_REPOSITORY:latest" in
  (In r (pushed tr) /\ tagged tr = [r])
  /\ (In r (tagged tr) /\
      exists account region repository,
        In ("AWS_ACCOUNT_ID", account) (environ_reads tr)
        /\ In ("AWS_REGION", region) (environ_reads tr)
        /\ In ("DASHBOARD_ECR_REPOSITORY", repository) (environ_reads tr)
        /\ r = account ++ ".dkr.ecr." ++ region ++ ".amazonaws.com/"
               ++ repository ++ ":latest")
  /\ (exists a,
        In (a, Some 9%N) (models tr) /\
        exists bucket,
          In ("DASHBOARD_S3_BUCKET", bucket) (environ_reads tr)
          /\ model_data a = "s3://" ++ bucket ++ "/model_assets.tar.gz"
          /\ code_location a = "s3://" ++ bucket ++ "/code").
Proof.
  cbv zeta.
  pose proof (notebook_passes_identifiers_through example_notebook_url obliging_world)
    as (_ & Hm & Ht & Hp).
  split; [|split].
  - split; [now left|]. apply Hp. now left.
  - split; [now left|]. apply Ht. now left.
  - eexists. split; [now left|]. apply (Hm _ (Some 9%N)). now left.
Defined.

(** C7 at the obliging world: the scale-up is the 26th event and the push
    that returned is among the 25 before it; the second build is the 15th
    event and the deployment that returned is among the 14 before it. *)
Lemma notebook_steps_in_order_obliging :
  let tr := fst (run obliging_world [] (notebook example_notebook_url)) in
  (tr = (firstn 25 tr ++ nth 25 tr (emitted (printed "")) :: skipn 26 tr)%list
   /\ is_scale_up (nth 25 tr (emitted (printed ""))) = true
   /\ exists ev', In ev' (firstn 25 tr) /\ is_push_done ev' = true)
  /\ (tr = (firstn 14 tr ++ nth 14 tr (emitted (printed "")) :: skipn 15 tr)%list
      /\ is_container_build (nth 14 tr (emitted (printed ""))) = true
      /\ exists ev', In ev' (firstn 14 tr) /\ is_deploy_done ev' = true).
Proof.
  cbv zeta.
  pose proof (notebook_steps_in_order example_notebook_url obliging_world)
    as (_ & _ & Hpush & Hdeploy).
  split.
  - split; [reflexivity|]. split; [reflexivity|].
    eapply Hpush with
      (ev := nth 25 (fst (run obliging_world []
                            (notebook example_notebook_url)))
               (emitted (printed "")))
      (tr2 := skipn 26 (fst (run obliging_world []
                               (notebook example_notebook_url))));
      reflexivity.
  - split; [reflexivity|]. split; [reflexivity|].
    eapply Hdeploy with
      (ev := nth 14 (fst (run obliging_world []
                            (notebook example_notebook_url)))
               (emitted (printed "")))
      (tr2 := skipn 15 (fst (run obliging_world []
                               (notebook example_notebook_url))));
      reflexivity.
Defined.

(** ** The cells one by one *)

Lemma split_app (sep : ascii) (a b : string) :
  PyStr.mem sep a = false ->
  PyStr.split sep (a ++ String sep b) = a :: PyStr.split sep b.
Proof.
  induction a as [|c a IH]; simpl; intros H.
  - now rewrite Ascii.eqb_refl.
  - apply orb_false_iff in H as [Hc Ha].
    rewrite Hc, (IH Ha). reflexivity.
Qed.

Lemma mem_app (c : ascii) (a b : string) :
  PyStr.mem c (a ++ b) = PyStr.mem c a || PyStr.mem c b.
Proof.
  induction a as [|x a IH]; simpl; [reflexivity|].
  now rewrite IH, orb_assoc.
Qed.

(** Every event of a run is an answer of the world to the call made. *)
Lemma run_answered {A : Type} (w : world) (p : prog A) :
  forall tr,
    Forall (answered_by w) tr -> Forall (answered_by w) (fst (run w tr p)).
Proof.
  induction p
    as [A a | A R c k IH | A o k IH | A C body IHb handler IHh k IH];
    intros tr H; simpl.
  - exact H.
  - destruct (w tr R c) as [e|r] eqn:E; simpl.
    + apply Forall_app. split; [exact H|].
      constructor; [now exists tr | constructor].
    + apply IH, Forall_app. split; [exact H|].
      constructor; [now exists tr | constructor].
  - apply IH, Forall_app. split; [exact H|].
    constructor; [exact I | constructor].
  - apply IHb in H.
    destruct (run w tr body) as [tr' [e|x]]; simpl in H; [|apply IH, H].
    apply (IHh e) in H.
    destruct (run w tr' (handler e)) as [tr'' [e'|x]]; simpl in H;
      [exact H | apply IH, H].
Qed.

Lemma environ_reads_answered (w : world) (tr : trace) (key v : string) :
  Forall (answered_by w) tr ->
  In (key, v) (environ_reads tr) ->
  exists tr0, w tr0 string (environ key) = inr v.
Proof.
  induction 1 as [|ev tr Hev _ IH]; simpl; [intros []|].
  intros Hin. apply in_app_or in Hin as [Hin|Hin]; [|exact (IH Hin)].
  destruct ev as [R c o|o]; [|destruct Hin].
  destruct c; try destruct Hin.
  destruct o as [e|x]; [destruct Hin|].
  destruct Hin as [[= <- <-]|[]]. exact Hev.
Qed.

(** The text of the CNAME warning, line by line: an empty first line, the
    instruction, [from: ] with [DASHBOARD_URL], [to: ] with
    [DASHBOARD_ALB], and the closing line, when neither value contains a
    line break. *)
Theorem cname_warning_lines (DASHBOARD_URL DASHBOARD_ALB : string)
    (Hurl : PyStr.mem PyStr.newline_char DASHBOARD_URL = false)
    (Halb : PyStr.mem PyStr.newline_char DASHBOARD_ALB = false) :
  PyStr.split PyStr.newline_char (cname_warning DASHBOARD_URL DASHBOARD_ALB)
  = [""; "Add CNAME record on your domain before continuing!";
     "from: " ++ DASHBOARD_URL; "to: " ++ DASHBOARD_ALB;
     "Otherwise you will see 'An error was encountered with the requested page' with Amazon Cognito."].
Proof.
  change (cname_warning DASHBOARD_URL DASHBOARD_ALB)
    with ("" ++ String PyStr.newline_char
            ("Add CNAME record on your domain before continuing!"
             ++ String PyStr.newline_char
                  (("from: " ++ DASHBOARD_URL)
                   ++ String PyStr.newline_char
                        (("to: " ++ DASHBOARD_ALB)
                         ++ String PyStr.newline_char
                              "Otherwise you will see 'An error was encountered with the requested page' with Amazon Cognito.")))).
  rewrite split_app by reflexivity.
  rewrite split_app by reflexivity.
  rewrite split_app by (rewrite mem_app, Hurl; reflexivity).
  rewrite split_app by (rewrite mem_app, Halb; reflexivity).
  reflexivity.
Qed.

Lemma cname_warning_lines_example :
  PyStr.split PyStr.newline_char
    (cname_warning "dash.example.com" "alb-1.elb.amazonaws.com")
  = [""; "Add CNAME record on your domain before continuing!";
     "from: dash.example.com"; "to: alb-1.elb.amazonaws.com";
     "Otherwise you will see 'An error was encountered with the requested page' with Amazon Cognito."].
Proof.
  apply (cname_warning_lines "dash.example.com" "alb-1.elb.amazonaws.com");
    reflexivity.
Defined.

Section NotebookCells.

Variable notebook_url : string.

(** The configuration cell checks [../../.env] once and calls
    [load_dotenv()] once when the file is there, and not at all when it is
    not or when the check raised. *)
Theorem load_dotenv_guarded (w : world) :
  let tr := fst (run w [] (notebook notebook_url)) in
  exists o,
    dotenv_checks tr = [("../../.env", o)]
    /\ dotenv_loads tr = match o with inr true => 1 | _ => 0 end.
Proof.
  cbv zeta. by_always w; cbn; eexists; split; reflexivity.
Qed.

(** The archive chain: the upload line runs only after the [tar] line
    returned and the model is defined only after the upload line returned;
    there is one upload, to the bucket read from [DASHBOARD_S3_BUCKET],
    made after both the tokenizer and the model were fetched into
    [./model_assets]; and [model_data] is [/model_assets.tar.gz] under the
    very destination written in the upload line. *)
Theorem model_data_is_uploaded_archive (w : world) :
  let tr := fst (run w [] (notebook notebook_url)) in
  (forall tr1 ev tr2,
      tr = (tr1 ++ ev :: tr2)%list -> is_upload ev = true ->
      exists ev', In ev' tr1 /\ is_tar_done ev' = true)
  /\ (forall tr1 ev tr2,
        tr = (tr1 ++ ev :: tr2)%list -> is_model_definition ev = true ->
        exists ev', In ev' tr1 /\ is_upload_done ev' = true)
  /\ (forall bucket,
        In bucket (uploads tr) ->
        uploads tr = [bucket]
        /\ In ("DASHBOARD_S3_BUCKET", bucket) (environ_reads tr)
        /\ fetched tr
           = [("AutoTokenizer", "distilgpt2", "./model_assets");
              ("AutoModelWithLMHead", "distilgpt2", "./model_assets")])
  /\ (forall a om,
        In (a, om) (models tr) ->
        exists bucket destination,
          uploads tr = [bucket]
          /\ command_line (aws_s3_cp bucket)
             = "aws s3 cp ./model_assets.tar.gz " ++ destination
          /\ model_data a = destination ++ "/model_assets.tar.gz").
Proof.
  cbv zeta. split; [|split].
  - apply not_before_sound. by_always w; reflexivity.
  - apply not_before_sound. by_always w; reflexivity.
  - by_always w; cbn in *; split_in; subst;
      first [ reflexivity
            | solve [cbn; auto 20]
            | solve [do 2 eexists; repeat split; reflexivity] ].
Qed.

(** The role given to [PyTorchModel] is the one
    [sagemaker.get_execution_role()] returned, asked for once. *)
Theorem model_role_is_execution_role (w : world) :
  let tr := fst (run w [] (notebook notebook_url)) in
  length (execution_roles tr) <= 1
  /\ (forall a om, In (a, om) (models tr) -> execution_roles tr = [role a]).
Proof.
  cbv zeta. by_always w; cbn in *; split_in; subst;
    first [ reflexivity | solve [cbn; auto 20] ].
Qed.

(** The dashboard image: at most two builds, each of the image [dashboard]
    with the build argument [DASHBOARD_SAGEMAKER_MODEL] set to the name of
    the endpoint whose deployment returned; the image tagged for the
    registry is that image, tagged only after a build returned and after
    both builds were started. *)
Theorem dashboard_built_for_deployed_endpoint (w : world) :
  let tr := fst (run w [] (notebook notebook_url)) in
  (forall tr1 ev tr2,
      tr = (tr1 ++ ev :: tr2)%list -> is_docker_tag ev = true ->
      exists ev', In ev' tr1 /\ is_build_done ev' = true)
  /\ length (builds tr) <= 2
  /\ (forall image model,
        In (image, model) (builds tr) ->
        image = image_name
        /\ exists predictor, predictors tr = [(model, predictor)])
  /\ (forall image,
        In image (tag_sources tr) ->
        exists model, builds tr = [(image, model); (image, model)]).
Proof.
  cbv zeta. split.
  - apply not_before_sound. by_always w; reflexivity.
  - by_always w; cbn in *; split_in; subst;
      first [ reflexivity
            | solve [cbn; auto 20]
            | solve [eexists; reflexivity] ].
Qed.

(** The registry lines come in the order tag, login, push: the login is
    not made before the tag line returned, nothing is pushed before the
    login line returned, and at most one reference is pushed. *)
Theorem push_follows_login (w : world) :
  let tr := fst (run w [] (notebook notebook_url)) in
  (forall tr1 ev tr2,
      tr = (tr1 ++ ev :: tr2)%list -> is_login ev = true ->
      exists ev', In ev' tr1 /\ is_tag_done ev' = true)
  /\ (forall tr1 ev tr2,
        tr = (tr1 ++ ev :: tr2)%list -> is_push ev = true ->
        exists ev', In ev' tr1 /\ is_login_done ev' = true)
  /\ length (pushed tr) <= 1.
Proof.
  cbv zeta. split; [|split].
  - apply not_before_sound. by_always w; reflexivity.
  - apply not_before_sound. by_always w; reflexivity.
  - by_always w; cbn; auto.
Qed.

(** Every [update-service] line names the cluster read from
    [DASHBOARD_ECS_CLUSTER] and the service read from
    [DASHBOARD_ECR_SERVICE]; the scale-down names the cluster and the
    service of the scale-up. *)
Theorem service_updates_name_one_service (w : world) :
  let tr := fst (run w [] (notebook notebook_url)) in
  (forall cluster service n,
      In (cluster, service, n) (service_updates tr) ->
      In ("DASHBOARD_ECS_CLUSTER", cluster) (environ_reads tr)
      /\ In ("DASHBOARD_ECR_SERVICE", service) (environ_reads tr))
  /\ (forall cluster service n cluster' service' n',
        In (cluster, service, n) (service_updates tr) ->
        In (cluster', service', n') (service_updates tr) ->
        cluster = cluster' /\ service = service').
Proof.
  cbv zeta. by_always w; cbn in *; split_in; subst;
    first [ reflexivity | solve [cbn; auto 20] ].
Qed.

(** Clean-up: the endpoint is deleted only after the scale-down to zero
    returned, the model only after the deletion of the endpoint returned
    (so not at all when that deletion raises); what is deleted is the
    predictor returned by the deployment, whose endpoint carries the name
    read from [DASHBOARD_SAGEMAKER_MODEL]; a run that reaches the end
    deletes the endpoint and the model once each. *)
Theorem teardown_deletes_what_was_deployed (w : world) :
  let tr := fst (run w [] (notebook notebook_url)) in
  (forall tr1 ev tr2,
      tr = (tr1 ++ ev :: tr2)%list -> is_delete_endpoint ev = true ->
      exists ev', In ev' tr1 /\ is_scale_down_done ev' = true)
  /\ (forall tr1 ev tr2,
        tr = (tr1 ++ ev :: tr2)%list -> is_delete_model ev = true ->
        exists ev', In ev' tr1 /\ is_delete_endpoint_done ev' = true)
  /\ (forall predictor,
        In predictor (deleted_endpoints tr)
        \/ In predictor (deleted_models tr) ->
        deleted_endpoints tr = [predictor]
        /\ exists model_name,
             predictors tr = [(model_name, predictor)]
             /\ In ("DASHBOARD_SAGEMAKER_MODEL", model_name)
                  (environ_reads tr))
  /\ length (deleted_models tr) <= 1
  /\ match snd (run w [] (notebook notebook_url)) with
     | inr _ => length (deleted_endpoints tr) = 1
                /\ length (deleted_models tr) = 1
     | inl _ => True
     end.
Proof.
  cbv zeta. split; [|split].
  - apply not_before_sound. by_always w; reflexivity.
  - apply not_before_sound. by_always w; reflexivity.
  - by_always w; cbn in *; split_in; subst;
      first [ reflexivity
            | solve [cbn; auto 20]
            | solve [eexists; split; [reflexivity | cbn; auto 20]] ].
Qed.

(** [warnings.warn] and [print] are called in the URL cell only: not at
    all in a run that ends before it, and otherwise [warnings.warn] once
    when the two values differ and then [print] once, with texts made of
    the values read from [DASHBOARD_URL] and [DASHBOARD_ALB]. *)
Theorem notebook_warns_and_prints (w : world) :
  let tr := fst (run w [] (notebook notebook_url)) in
  (warned_and_printed tr = []
   /\ exists e, snd (run w [] (notebook notebook_url)) = inl e)
  \/ exists url alb,
       In ("DASHBOARD_URL", url) (environ_reads tr)
       /\ In ("DASHBOARD_ALB", alb) (environ_reads tr)
       /\ warned_and_printed tr
          = ((if String.eqb url alb
              then []
              else [warning (cname_warning url alb)])
             ++ [printed ("DASHBOARD_URL: https://" ++ url)])%list.
Proof.
  cbv zeta. by_always_eqn w; cbn;
    first [ solve [left; split; [reflexivity | eexists; reflexivity]]
          | right; do 2 eexists; split; [cbn; auto 20|];
            split; [cbn; auto 20|];
            match goal with
            | H : negb (String.eqb ?a ?b) = _ |- _ =>
                destruct (String.eqb a b); try discriminate H; reflexivity
            end ].
Qed.

(** The names looked up in [os.environ] are, in order, a beginning of the
    nine names of the notebook, each looked up at most once and no other
    name ever; a run that reaches the end has looked up all nine. *)
Theorem environ_lookups_of_notebook (w : world) :
  let tr := fst (run w [] (notebook notebook_url)) in
  (exists rest, (environ_lookups tr ++ rest)%list = environ_names)
  /\ NoDup (environ_lookups tr)
  /\ match snd (run w [] (notebook notebook_url)) with
     | inr _ => environ_lookups tr = environ_names
     | inl _ => True
     end.
Proof.
  cbv zeta. split; [|split].
  - by_always w; cbn; eexists; reflexivity.
  - by_always w; cbn;
      repeat (constructor; [cbn; intuition discriminate|]); constructor.
  - by_always w; cbn; auto.
Qed.

Lemma complete_run_reads_every_name (w : world) :
  let tr := fst (run w [] (notebook notebook_url)) in
  match snd (run w [] (notebook notebook_url)) with
  | inr _ => map fst (environ_reads tr) = environ_names
  | inl _ => True
  end.
Proof.
  cbv zeta. by_always w; cbn; auto.
Qed.

(** When the world never returns a value for one of the nine names, the
    run ends with an exception: the notebook has no default for any of
    them. *)
Theorem missing_name_ends_run (w : world) (key : string)
    (Hkey : In key environ_names)
    (Hmissing : forall tr0 v, w tr0 string (environ key) <> inr v) :
  exists e, snd (run w [] (notebook notebook_url)) = inl e.
Proof.
  pose proof (complete_run_reads_every_name w) as Hreads. cbv zeta in Hreads.
  destruct (snd (run w [] (notebook notebook_url))) as [e|u] eqn:E.
  - now exists e.
  - exfalso. rewrite <- Hreads in Hkey.
    apply in_map_iff in Hkey as ([k v] & <- & Hin).
    destruct (environ_reads_answered w _ _ _
                (run_answered w (notebook notebook_url) [] (Forall_nil _)) Hin)
      as (tr0 & Htr0).
    exact (Hmissing _ _ Htr0).
Qed.

End NotebookCells.

Lemma missing_name_ends_run_AWS_REGION :
  In "AWS_REGION" environ_names
  /\ exists e,
       snd (run (world_without "AWS_REGION") [] (notebook example_notebook_url))
       = inl e.
Proof.
  split; [cbn; auto 10|].
  apply (missing_name_ends_run example_notebook_url
           (world_without "AWS_REGION") "AWS_REGION").
  - cbn; auto 10.
  - intros tr0 v. cbn. discriminate.
Defined.

(** The archive chain at the obliging world: the upload is the 7th event,
    the model definition the 10th. *)
Lemma model_data_is_uploaded_archive_obliging :
  let tr := fst (run obliging_world [] (notebook example_notebook_url)) in
  let ev0 := emitted (printed "") in
  (tr = (firstn 6 tr ++ nth 6 tr ev0 :: skipn 7 tr)%list
   /\ is_upload (nth 6 tr ev0) = true
   /\ exists ev', In ev' (firstn 6 tr) /\ is_tar_done ev' = true)
  /\ (tr = (firstn 9 tr ++ nth 9 tr ev0 :: skipn 10 tr)%list
      /\ is_model_definition (nth 9 tr ev0) = true
      /\ exists ev', In ev' (firstn 9 tr) /\ is_upload_done ev' = true)
  /\ (In "value-of-DASHBOARD_S3_BUCKET" (uploads tr)
      /\ uploads tr = ["value-of-DASHBOARD_S3_BUCKET"]
      /\ In ("DASHBOARD_S3_BUCKET", "value-of-DASHBOARD_S3_BUCKET")
           (environ_reads tr))
  /\ (exists a,
        In (a, Some 9%N) (models tr)
        /\ exists bucket destination,
             uploads tr = [bucket]
             /\ command_line (aws_s3_cp bucket)
                = "aws s3 cp ./model_assets.tar.gz " ++ destination
             /\ model_data a = destination ++ "/model_assets.tar.gz").
Proof.
  cbv zeta.
  pose proof (model_data_is_uploaded_archive example_notebook_url
                obliging_world) as (Htar & Hup & Hbucket & Hmodel).
  split; [|split; [|split]].
  - split; [reflexivity|]. split; [reflexivity|].
    eapply Htar with
      (ev := nth 6 (fst (run obliging_world [] (notebook example_notebook_url)))
               (emitted (printed "")))
      (tr2 := skipn 7 (fst (run obliging_world []
                              (notebook example_notebook_url))));
      reflexivity.
  - split; [reflexivity|]. split; [reflexivity|].
    eapply Hup with
      (ev := nth 9 (fst (run obliging_world [] (notebook example_notebook_url)))
               (emitted (printed "")))
      (tr2 := skipn 10 (fst (run obliging_world []
                               (notebook example_notebook_url))));
      reflexivity.
  - split; [now left|].
    destruct (Hbucket "value-of-DASHBOARD_S3_BUCKET") as (H1 & H2 & _);
      [now left | split; assumption].
  - eexists. split; [now left|]. apply (Hmodel _ (Some 9%N)). now left.
Defined.

Lemma model_role_is_execution_role_obliging :
  let tr := fst (run obliging_world [] (notebook example_notebook_url)) in
  exists a,
    In (a, Some 9%N) (models tr) /\ execution_roles tr = [role a].
Proof.
  cbv zeta.
  pose proof (model_role_is_execution_role example_notebook_url
                obliging_world) as (_ & Hrole).
  eexists. split; [now left|]. apply (Hrole _ (Some 9%N)). now left.
Defined.

Lemma dashboard_built_for_deployed_endpoint_obliging :
  let tr := fst (run obliging_world [] (notebook example_notebook_url)) in
  let ev0 := emitted (printed "") in
  (tr = (firstn 20 tr ++ nth 20 tr ev0 :: skipn 21 tr)%list
   /\ is_docker_tag (nth 20 tr ev0) = true
   /\ exists ev', In ev' (firstn 20 tr) /\ is_build_done ev' = true)
  /\ (In ("dashboard", "value-of-DASHBOARD_SAGEMAKER_MODEL") (builds tr)
      /\ "dashboard" = image_name
      /\ exists predictor,
           predictors tr = [("value-of-DASHBOARD_SAGEMAKER_MODEL", predictor)])
  /\ (In "dashboard" (tag_sources tr)
      /\ exists model, builds tr = [("dashboard", model); ("dashboard", model)]).
Proof.
  cbv zeta.
  pose proof (dashboard_built_for_deployed_endpoint example_notebook_url
                obliging_world) as (Htag & _ & Hbuild & Hsrc).
  split; [|split].
  - split; [reflexivity|]. split; [reflexivity|].
    eapply Htag with
      (ev := nth 20 (fst (run obliging_world [] (notebook example_notebook_url)))
               (emitted (printed "")))
      (tr2 := skipn 21 (fst (run obliging_world []
                               (notebook example_notebook_url))));
      reflexivity.
  - split; [now left|]. apply Hbuild. now left.
  - split; [now left|]. apply Hsrc. now left.
Defined.

Lemma push_follows_login_obliging :
  let tr := fst (run obliging_world [] (notebook example_notebook_url)) in
  let ev0 := emitted (printed "") in
  (tr = (firstn 21 tr ++ nth 21 tr ev0 :: skipn 22 tr)%list
   /\ is_login (nth 21 tr ev0) = true
   /\ exists ev', In ev' (firstn 21 tr) /\ is_tag_done ev' = true)
  /\ (tr = (firstn 22 tr ++ nth 22 tr ev0 :: skipn 23 tr)%list
      /\ is_push (nth 22 tr ev0) = true
      /\ exists ev', In ev' (firstn 22 tr) /\ is_login_done ev' = true).
Proof.
  cbv zeta.
  pose proof (push_follows_login example_notebook_url obliging_world)
    as (Hlogin & Hpush & _).
  split.
  - split; [reflexivity|]. split; [reflexivity|].
    eapply Hlogin with
      (ev := nth 21 (fst (run obliging_world [] (notebook example_notebook_url)))
               (emitted (printed "")))
      (tr2 := skipn 22 (fst (run obliging_world []
                               (notebook example_notebook_url))));
      reflexivity.
  - split; [reflexivity|]. split; [reflexivity|].
    eapply Hpush with
      (ev := nth 22 (fst (run obliging_world [] (notebook example_notebook_url)))
               (emitted (printed "")))
      (tr2 := skipn 23 (fst (run obliging_world []
                               (notebook example_notebook_url))));
      reflexivity.
Defined.

Lemma service_updates_name_one_service_obliging :
  let tr := fst (run obliging_world [] (notebook example_notebook_url)) in
  let cluster := "value-of-DASHBOARD_ECS_CLUSTER" in
  let service := "value-of-DASHBOARD_ECR_SERVICE" in
  In (cluster, service, 2%N) (service_updates tr)
  /\ In (cluster, service, 0%N) (service_updates tr)
  /\ In ("DASHBOARD_ECS_CLUSTER", cluster) (environ_reads tr)
  /\ In ("DASHBOARD_ECR_SERVICE", service) (environ_reads tr)
  /\ cluster = cluster /\ service = service.
Proof.
  cbv zeta.
  pose proof (service_updates_name_one_service example_notebook_url
                obliging_world) as (Hread & Hsame).
  assert (H2 : In ("value-of-DASHBOARD_ECS_CLUSTER",
                   "value-of-DASHBOARD_ECR_SERVICE", 2%N)
                 (service_updates
                    (fst (run obliging_world []
                            (notebook example_notebook_url)))))
    by (now left).
  assert (H0 : In ("value-of-DASHBOARD_ECS_CLUSTER",
                   "value-of-DASHBOARD_ECR_SERVICE", 0%N)
                 (service_updates
                    (fst (run obliging_world []
                            (notebook example_notebook_url)))))
    by (right; now left).
  split; [exact H2|]. split; [exact H0|].
  destruct (Hread _ _ _ H2) as (Hc & Hs).
  split; [exact Hc|]. split; [exact Hs|].
  exact (Hsame _ _ _ _ _ _ H2 H0).
Defined.

Lemma teardown_deletes_what_was_deployed_obliging :
  let tr := fst (run obliging_world [] (notebook example_notebook_url)) in
  let ev0 := emitted (printed "") in
  (tr = (firstn 31 tr ++ nth 31 tr ev0 :: skipn 32 tr)%list
   /\ is_delete_endpoint (nth 31 tr ev0) = true
   /\ exists ev', In ev' (firstn 31 tr) /\ is_scale_down_done ev' = true)
  /\ (tr = (firstn 32 tr ++ nth 32 tr ev0 :: skipn 33 tr)%list
      /\ is_delete_model (nth 32 tr ev0) = true
      /\ exists ev', In ev' (firstn 32 tr) /\ is_delete_endpoint_done ev' = true)
  /\ (In 10%N (deleted_models tr)
      /\ deleted_endpoints tr = [10%N]
      /\ exists model_name,
           predictors tr = [(model_name, 10%N)]
           /\ In ("DASHBOARD_SAGEMAKER_MODEL", model_name) (environ_reads tr)).
Proof.
  cbv zeta.
  pose proof (teardown_deletes_what_was_deployed example_notebook_url
                obliging_world) as (Hend & Hmod & Hpred & _).
  split; [|split].
  - split; [reflexivity|]. split; [reflexivity|].
    eapply Hend with
      (ev := nth 31 (fst (run obliging_world [] (notebook example_notebook_url)))
               (emitted (printed "")))
      (tr2 := skipn 32 (fst (run obliging_world []
                               (notebook example_notebook_url))));
      reflexivity.
  - split; [reflexivity|]. split; [reflexivity|].
    eapply Hmod with
      (ev := nth 32 (fst (run obliging_world [] (notebook example_notebook_url)))
               (emitted (printed "")))
      (tr2 := skipn 33 (fst (run obliging_world []
                               (notebook example_notebook_url))));
      reflexivity.
  - split; [now left|]. apply Hpred. right. now left.
Defined.
